(** * PDF knowledge assistant: configuration, embedder adapter and setup routine

    A shallow embedding of [assistant.py] and [config.py].  The script is glue
    code around external libraries (sentence-transformers, SQLAlchemy, phidata,
    pydantic).  The libraries are opaque: every call that crosses into one of
    them is recorded as an [event] and its result is read from a record of
    [Externals], which may make any of those calls raise.  What is embedded
    from the source is the control flow around these calls: the exception
    handlers, the lazy model attribute, the dimension check, the order of the
    set-up steps and the choice of the run id. *)

From Stdlib Require Import ZArith PrimFloat.
From stdpp Require Import base strings gmap list pretty sorting.

Local Open Scope Z_scope.
Local Open Scope string_scope.
Local Open Scope list_scope.

(** ** Python exceptions *)

(** The classes the script distinguishes.  [SystemExit] and
    [KeyboardInterrupt] derive from [BaseException] only; the other three are
    subclasses of [Exception].  [OtherException cls msg] stands for an
    instance of any further subclass of [Exception] that is not a
    [SQLAlchemyError]. *)
Inductive exn : Type :=
  | SystemExit (code : Z)
  | KeyboardInterrupt
  | ValueError (msg : string)
  | SQLAlchemyError (msg : string)
  | OtherException (cls msg : string).

(** [isinstance(e, Exception)]: what [except Exception] catches. *)
Definition isinstance_Exception (e : exn) : bool :=
  match e with
  | SystemExit _ | KeyboardInterrupt => false
  | ValueError _ | SQLAlchemyError _ | OtherException _ _ => true
  end.

(** [isinstance(e, SQLAlchemyError)]: what [except SQLAlchemyError] catches. *)
Definition isinstance_SQLAlchemyError (e : exn) : bool :=
  match e with
  | SQLAlchemyError _ => true
  | _ => false
  end.

(** [str(e)] *)
Definition str (e : exn) : string :=
  match e with
  | SystemExit code => pretty code
  | KeyboardInterrupt => EmptyString
  | ValueError msg | SQLAlchemyError msg | OtherException _ msg => msg
  end.

(** ** Configuration ([AppConfig], [config], [Settings]) *)

Record AppConfig : Type := {
  db_url : string;
  collection_name : string;
  embedder_model : string;
  embedder_dim : Z;
  table_name : string
}.

(** Keyword arguments of the pydantic constructor [AppConfig(...)]: a field
    that is not passed takes its [Field(default=...)]. *)
Record AppConfig_kwargs : Type := {
  kw_db_url : option string;
  kw_collection_name : option string;
  kw_embedder_model : option string;
  kw_embedder_dim : option Z;
  kw_table_name : option string
}.

Definition no_kwargs : AppConfig_kwargs :=
  {| kw_db_url := None; kw_collection_name := None; kw_embedder_model := None;
     kw_embedder_dim := None; kw_table_name := None |}.

Definition AppConfig_init (kw : AppConfig_kwargs) : AppConfig :=
  {| db_url := default "postgresql+psycopg://ai:ai@localhost:5532/ai" (kw_db_url kw);
     collection_name := default "science_docs" (kw_collection_name kw);
     embedder_model := default "all-MiniLM-L6-v2" (kw_embedder_model kw);
     embedder_dim := default 384 (kw_embedder_dim kw);
     table_name := default "science_assistant" (kw_table_name kw) |}.

(** [config = AppConfig()] *)
Definition config : AppConfig := AppConfig_init no_kwargs.

(** [load_dotenv()]: the variables of the parsed [.env] file are added to
    [os.environ]; a variable that is already set keeps its value
    ([override=False]). *)
Definition load_dotenv (dotenv_file environ : gmap string string) : gmap string string :=
  environ ∪ dotenv_file.

(** The module-level statements of [assistant.py] that build the globals the
    functions below read: [load_dotenv()] and then [config = AppConfig()]. *)
Record module_globals : Type := {
  os_environ : gmap string string;
  module_config : AppConfig
}.

Definition module_init (dotenv_file environ : gmap string string) : module_globals :=
  {| os_environ := load_dotenv dotenv_file environ;
     module_config := config |}.

(** [config.py]: [Settings(BaseSettings)] with [env_file = ".env"]. *)
Record Settings : Type := {
  DB_URL : string;
  EMBEDDER_MODEL : string;
  EMBEDDING_DIM : Z;
  COLLECTION_NAME : string;
  TABLE_NAME : string
}.

(** [settings = Settings()].  [source] is what pydantic's settings sources
    supply for a field name (the process environment first, then the [.env]
    file); [int_of_str] is pydantic's coercion of a string to an [int] field.
    A value that does not coerce is a validation error, raised by the
    constructor. *)
Definition Settings_init (int_of_str : string -> option Z)
    (source : string -> option string) : exn + Settings :=
  match source "EMBEDDING_DIM" with
  | None =>
      inr {| DB_URL := default "postgresql+psycopg://ai:ai@localhost:5532/ai" (source "DB_URL");
             EMBEDDER_MODEL := default "all-MiniLM-L6-v2" (source "EMBEDDER_MODEL");
             EMBEDDING_DIM := 384;
             COLLECTION_NAME := default "science_docs" (source "COLLECTION_NAME");
             TABLE_NAME := default "science_assistant" (source "TABLE_NAME") |}
  | Some raw =>
      match int_of_str raw with
      | None => inl (OtherException "ValidationError" "EMBEDDING_DIM")
      | Some d =>
          inr {| DB_URL := default "postgresql+psycopg://ai:ai@localhost:5532/ai" (source "DB_URL");
                 EMBEDDER_MODEL := default "all-MiniLM-L6-v2" (source "EMBEDDER_MODEL");
                 EMBEDDING_DIM := d;
                 COLLECTION_NAME := default "science_docs" (source "COLLECTION_NAME");
                 TABLE_NAME := default "science_assistant" (source "TABLE_NAME") |}
      end
  end.

(** The sources of [Settings] for a process environment and a parsed [.env]
    file: the environment wins. *)
Definition settings_source (dotenv_file environ : gmap string string) (name : string)
    : option string :=
  (environ ∪ dotenv_file) !! name.

(** ** Objects *)

(** A [SentenceTransformer] instance: its identity and the name it was loaded
    from. *)
Record SentenceTransformer : Type := {
  st_id : nat;
  st_name : string
}.

(** An [HfEmbedder] instance.  [model_name] is frozen; the mutable private
    attribute [_model] lives in the store, under the object's identity. *)
Record HfEmbedder : Type := {
  hf_id : nat;
  model_name : string
}.

Record PgVector2 : Type := {
  collection : string;
  vdb_url : string;
  embedder : HfEmbedder;
  dim : Z
}.

Record PDFUrlKnowledgeBase : Type := {
  urls : list string;
  vector_db : PgVector2
}.

Record PgAssistantStorage : Type := {
  storage_table_name : string;
  storage_db_url : string
}.

(** The keyword arguments [main] passes to [Assistant(...)]. *)
Record Assistant_kwargs : Type := {
  arg_run_id : option string;
  arg_user_id : string;
  arg_knowledge_base : PDFUrlKnowledgeBase;
  arg_storage : PgAssistantStorage;
  arg_tools : list string;
  arg_show_tool_calls : bool;
  arg_read_chat_history : bool
}.

(** An [Assistant] instance: what it was built from, and the [run_id]
    attribute the framework gives it. *)
Record Assistant : Type := {
  kwargs : Assistant_kwargs;
  run_id : string
}.

(** The values the script builds as dict literals. *)
#[warnings="-register-all"] Inductive pyobj : Type :=
  | PyStr (s : string)
  | PyInt (n : Z)
  | PyDict (items : list (string * pyobj)).

(** ** Events, store and the monad of the script *)

Inductive level : Type := INFO | ERROR.

(** One constructor per call that leaves the script. *)
Inductive event : Type :=
  | Log (lvl : level) (msg : string)
  | EvSentenceTransformer (name : string)
  | EvEncode (m : SentenceTransformer) (text : string)
  | EvCreateEngine (url : string)
  | EvConnect
  | EvExecute (sql : string)
  | EvCommit
  | EvClose
  | EvPgVector2 (v : PgVector2)
  | EvPDFUrlKnowledgeBase (kb : PDFUrlKnowledgeBase)
  | EvLoad (kb : PDFUrlKnowledgeBase) (recreate : bool)
  | EvPgAssistantStorage (st : PgAssistantStorage)
  | EvGetAllRunIds (st : PgAssistantStorage) (user_id : string)
  | EvAssistant (kw : Assistant_kwargs)
  | EvCliApp (a : Assistant) (markdown : bool).

(** What the external libraries answer.  [None] (or [inr]) is a call that
    returns, [Some e] (or [inl e]) one that raises [e].  Whatever a library
    does inside a call stays inside it: [knowledge_base_load] stands for the
    whole of [knowledge_base.load(recreate=False)], the library's own calls
    to the embedder included, and answers with the exception that comes out
    of it, if any. *)
Record Externals : Type := {
  SentenceTransformer_init : string -> option exn;
  encode : SentenceTransformer -> string -> exn + list float;
  create_engine : string -> option exn;
  engine_connect : option exn;
  conn_execute : string -> option exn;
  conn_commit : option exn;
  conn_close : option exn;
  PgVector2_init : PgVector2 -> option exn;
  PDFUrlKnowledgeBase_init : PDFUrlKnowledgeBase -> option exn;
  knowledge_base_load : PDFUrlKnowledgeBase -> bool -> option exn;
  PgAssistantStorage_init : PgAssistantStorage -> option exn;
  get_all_run_ids : PgAssistantStorage -> string -> exn + list string;
  Assistant_init : Assistant_kwargs -> exn + string;
  cli_app : Assistant -> bool -> option exn
}.

(** The store of the interpreter: the next fresh object identity, and the
    [_model] attribute of every [HfEmbedder] (an absent key is [None]). *)
Record store : Type := {
  next_id : nat;
  models : gmap nat SentenceTransformer
}.

Inductive outcome (A : Type) : Type :=
  | Return (a : A)
  | Raise (e : exn).
Arguments Return {A} a.
Arguments Raise {A} e.

(** A run: how it ended, the store it left, and the log lines and library
    calls it made, oldest first. *)
Record run (A : Type) : Type := Run {
  result : outcome A;
  final : store;
  events : list event
}.
Arguments Run {A} result final events.
Arguments result {A} r.
Arguments final {A} r.
Arguments events {A} r.

Definition M (A : Type) : Type := store -> run A.

(** [r], run after the events [evs]. *)
Definition after {A} (evs : list event) (r : run A) : run A :=
  match r with
  | Run o s evs' => Run o s (evs ++ evs')
  end.

Definition ret {A} (a : A) : M A := fun s => Run (Return a) s [].

Definition raise {A} (e : exn) : M A := fun s => Run (Raise e) s [].

Definition bind {A B} (m : M A) (k : A -> M B) : M B :=
  fun s =>
    match m s with
    | Run (Return a) s1 evs => after evs (k a s1)
    | Run (Raise e) s1 evs => Run (Raise e) s1 evs
    end.

Notation "x <- m ;; k" := (bind m (fun x => k))
  (at level 100, m at next level, right associativity).
Notation "m ;; k" := (bind m (fun _ => k))
  (at level 100, right associativity).

(** [try: body / except <class> as e: handler e] *)
Definition try_except {A} (body : M A) (catches : exn -> bool) (handler : exn -> M A) : M A :=
  fun s =>
    match body s with
    | Run (Return a) s1 evs => Run (Return a) s1 evs
    | Run (Raise e) s1 evs =>
        if catches e then after evs (handler e s1) else Run (Raise e) s1 evs
    end.

(** [try: body / finally: cleanup], the shape of a [with] block whose
    [__exit__] does not suppress the exception. *)
Definition finally {A} (body : M A) (cleanup : M unit) : M A :=
  fun s =>
    match body s with
    | Run (Return a) s1 evs => after evs ((cleanup ;; ret a) s1)
    | Run (Raise e) s1 evs => after evs ((cleanup ;; raise e) s1)
    end.

Definition emit (ev : event) : M unit := fun s => Run (Return tt) s [ev].

(** A call into a library that returns nothing the script uses. *)
Definition call (ev : event) (answer : option exn) : M unit :=
  emit ev ;;
  match answer with
  | None => ret tt
  | Some e => raise e
  end.

(** A call into a library whose result the script uses. *)
Definition call_val {A} (ev : event) (answer : exn + A) : M A :=
  emit ev ;;
  match answer with
  | inr a => ret a
  | inl e => raise e
  end.

(** A fresh object identity. *)
Definition fresh : M nat :=
  fun s => Run (Return (next_id s)) {| next_id := S (next_id s); models := models s |} [].

Definition logger_info (msg : string) : M unit := emit (Log INFO msg).
Definition logger_error (msg : string) : M unit := emit (Log ERROR msg).

(** [sys.exit(code)] raises [SystemExit(code)]; when nothing catches it the
    interpreter terminates with that status. *)
Definition sys_exit {A} (code : Z) : M A := raise (SystemExit code).

(** The status the interpreter exits with when [typer.run(main)] ends as
    [r]: an uncaught [SystemExit(code)] gives [code], any other uncaught
    exception gives 1. *)
Definition exit_status (r : run unit) : Z :=
  match result r with
  | Return _ => 0
  | Raise (SystemExit code) => code
  | Raise _ => 1
  end.

(** ** The script *)

Section Script.

Variable ext : Externals.

(** [SentenceTransformer(name)]: a new object on every call. *)
Definition new_SentenceTransformer (name : string) : M SentenceTransformer :=
  call (EvSentenceTransformer name) (SentenceTransformer_init ext name) ;;
  i <- fresh ;;
  ret {| st_id := i; st_name := name |}.

(** [self._model] *)
Definition get_model (self : HfEmbedder) : M (option SentenceTransformer) :=
  fun s => Run (Return (models s !! hf_id self)) s [].

(** [self._model = m] *)
Definition set_model (self : HfEmbedder) (m : option SentenceTransformer) : M unit :=
  fun s => Run (Return tt)
              {| next_id := next_id s;
                 models := match m with
                           | Some m => <[hf_id self := m]> (models s)
                           | None => delete (hf_id self) (models s)
                           end |}
              [].

(** [HfEmbedder()]: [model_name] takes its default [config.embedder_model],
    [_model] its class-level value [None]. *)
Definition HfEmbedder_init : M HfEmbedder :=
  i <- fresh ;;
  let self := {| hf_id := i; model_name := embedder_model config |} in
  set_model self None ;;
  ret self.

(** The property [HfEmbedder.model]. *)
Definition model (self : HfEmbedder) : M SentenceTransformer :=
  cached <- get_model self ;;
  match cached with
  | None =>
      logger_info ("Loading embedding model: " +:+ model_name self) ;;
      m <- new_SentenceTransformer (model_name self) ;;
      set_model self (Some m) ;;
      ret m
  | Some m => ret m
  end.

(** The dict [{"model": self.model_name, "usage": {"total_tokens": 0}}]. *)
Definition usage_dict (self : HfEmbedder) : pyobj :=
  PyDict [("model", PyStr (model_name self));
          ("usage", PyDict [("total_tokens", PyInt 0)])].

(** The [try] block of [get_embedding_and_usage]. *)
Definition get_embedding_and_usage_body (self : HfEmbedder) (text : string)
    : M (list float * pyobj) :=
  m <- model self ;;
  embedding <- call_val (EvEncode m text) (encode ext m text) ;;
  if bool_decide (Z.of_nat (length embedding) ≠ embedder_dim config) then
    logger_error ("Embedding dimension mismatch: Expected "
                  +:+ pretty (embedder_dim config) +:+ ", got "
                  +:+ pretty (Z.of_nat (length embedding))) ;;
    raise (ValueError "Embedding dimension mismatch")
  else
    ret (embedding, usage_dict self).

Definition get_embedding_and_usage (self : HfEmbedder) (text : string)
    : M (list float * pyobj) :=
  try_except (get_embedding_and_usage_body self text)
    isinstance_Exception
    (fun e =>
       logger_error ("Embedding generation failed: " +:+ str e) ;;
       raise e).

(** The [try] block of [setup_database]; the [with] block closes the
    connection on the way out, also when its body raises. *)
Definition setup_database_body : M unit :=
  logger_info "Initializing database connection" ;;
  call (EvCreateEngine (db_url config)) (create_engine ext (db_url config)) ;;
  call EvConnect (engine_connect ext) ;;
  finally
    (call (EvExecute "CREATE EXTENSION IF NOT EXISTS vector")
          (conn_execute ext "CREATE EXTENSION IF NOT EXISTS vector") ;;
     call EvCommit (conn_commit ext))
    (call EvClose (conn_close ext)) ;;
  logger_info "Database extension setup completed".

Definition setup_database : M unit :=
  try_except setup_database_body
    isinstance_SQLAlchemyError
    (fun e =>
       logger_error ("Database setup failed: " +:+ str e) ;;
       sys_exit 1).

Definition create_vector_db : M PgVector2 :=
  emb <- HfEmbedder_init ;;
  let v := {| collection := collection_name config;
              vdb_url := db_url config;
              embedder := emb;
              dim := embedder_dim config |} in
  call (EvPgVector2 v) (PgVector2_init ext v) ;;
  ret v.

(** The [try] block of [create_knowledge_base]. *)
Definition create_knowledge_base_body (vdb : PgVector2) : M PDFUrlKnowledgeBase :=
  logger_info "Creating knowledge base" ;;
  let knowledge_base :=
    {| urls := ["https://www.nobelprize.org/uploads/2024/10/advanced-chemistryprize2024.pdf"];
       vector_db := vdb |} in
  call (EvPDFUrlKnowledgeBase knowledge_base) (PDFUrlKnowledgeBase_init ext knowledge_base) ;;
  logger_info "Loading documents into vector database" ;;
  call (EvLoad knowledge_base false) (knowledge_base_load ext knowledge_base false) ;;
  ret knowledge_base.

Definition create_knowledge_base (vdb : PgVector2) : M PDFUrlKnowledgeBase :=
  try_except (create_knowledge_base_body vdb)
    isinstance_Exception
    (fun e =>
       logger_error ("Knowledge base creation failed: " +:+ str e) ;;
       sys_exit 1).

(** The block of [main] under the comment "Manage session state". *)
Definition manage_session_state (storage : PgAssistantStorage)
    (new_session : bool) (user_id : string) : M (option string) :=
  if negb new_session then
    existing_runs <- call_val (EvGetAllRunIds storage user_id)
                              (get_all_run_ids ext storage user_id) ;;
    match existing_runs with
    | r :: _ =>
        logger_info ("Resuming existing session: " +:+ r) ;;
        ret (Some r)
    | [] => ret None
    end
  else ret None.

(** [Assistant(run_id=..., user_id=..., knowledge_base=..., storage=...,
    tools=[], show_tool_calls=True, read_chat_history=True)] *)
Definition new_Assistant (rid : option string) (user_id : string)
    (knowledge_base : PDFUrlKnowledgeBase) (storage : PgAssistantStorage) : M Assistant :=
  let kw := {| arg_run_id := rid; arg_user_id := user_id;
               arg_knowledge_base := knowledge_base; arg_storage := storage;
               arg_tools := []; arg_show_tool_calls := true;
               arg_read_chat_history := true |} in
  given <- call_val (EvAssistant kw) (Assistant_init ext kw) ;;
  ret {| kwargs := kw; run_id := given |}.

Definition main (new_session : bool) (user_id : string) : M unit :=
  setup_database ;;
  vdb <- create_vector_db ;;
  knowledge_base <- create_knowledge_base vdb ;;
  let storage := {| storage_table_name := table_name config;
                    storage_db_url := db_url config |} in
  call (EvPgAssistantStorage storage) (PgAssistantStorage_init ext storage) ;;
  rid <- manage_session_state storage new_session user_id ;;
  assistant <- new_Assistant rid user_id knowledge_base storage ;;
  logger_info ("Starting assistant session: " +:+ run_id assistant) ;;
  call (EvCliApp assistant true) (cli_app ext assistant true).

End Script.

(** ** Concrete worlds *)

(** A world given by what the model answers, what [engine.connect()] and
    [knowledge_base.load()] do, and the runs the storage holds; every other
    library call returns. *)
Definition world (vec : exn + list float) (connect load : option exn)
    (runs : exn + list string) : Externals :=
  {| SentenceTransformer_init := fun _ => None;
     encode := fun _ _ => vec;
     create_engine := fun _ => None;
     engine_connect := connect;
     conn_execute := fun _ => None;
     conn_commit := None;
     conn_close := None;
     PgVector2_init := fun _ => None;
     PDFUrlKnowledgeBase_init := fun _ => None;
     knowledge_base_load := fun _ _ => load;
     PgAssistantStorage_init := fun _ => None;
     get_all_run_ids := fun _ _ => runs;
     Assistant_init := fun kw => inr (default "generated-run" (arg_run_id kw));
     cli_app := fun _ _ => None |}.

(** Every call returns: the model yields vectors of 384 components and the
    storage holds two runs. *)
Definition calm : Externals :=
  world (inr (replicate 384 0.5%float)) None None (inr ["run-7"; "run-3"]).

(** A model that yields vectors of three components. *)
Definition short_model : Externals :=
  world (inr (replicate 3 0.5%float)) None None (inr ["run-7"; "run-3"]).

(** A model whose [encode] raises. *)
Definition broken_model : Externals :=
  world (inl (OtherException "RuntimeError" "out of memory")) None None
        (inr ["run-7"; "run-3"]).

(** A database that refuses the connection. *)
Definition db_down : Externals :=
  world (inr (replicate 384 0.5%float)) (Some (SQLAlchemyError "connection refused")) None
        (inr ["run-7"; "run-3"]).

(** A PDF that cannot be fetched. *)
Definition pdf_unreachable : Externals :=
  world (inr (replicate 384 0.5%float)) None (Some (OtherException "HTTPError" "404 Not Found"))
        (inr ["run-7"; "run-3"]).

(** A storage without runs. *)
Definition first_visit : Externals :=
  world (inr (replicate 384 0.5%float)) None None (inr []).

(** The store of a fresh interpreter. *)
Definition boot : store := {| next_id := 0; models := ∅ |}.

(** The embedder and the vector store [create_vector_db] builds first in a
    fresh interpreter, and the store it leaves. *)
Definition embedder0 : HfEmbedder := {| hf_id := 0; model_name := "all-MiniLM-L6-v2" |}.

Definition vector_db0 : PgVector2 :=
  {| collection := "science_docs";
     vdb_url := "postgresql+psycopg://ai:ai@localhost:5532/ai";
     embedder := embedder0;
     dim := 384 |}.

Definition after_vector_db0 : store := {| next_id := 1; models := ∅ |}.

(** The knowledge base [create_knowledge_base] builds on a vector store. *)
Definition knowledge_base0 (vdb : PgVector2) : PDFUrlKnowledgeBase :=
  {| urls := ["https://www.nobelprize.org/uploads/2024/10/advanced-chemistryprize2024.pdf"];
     vector_db := vdb |}.

(** The model [embedder0] loads first, and the store that holds it. *)
Definition model0 : SentenceTransformer := {| st_id := 0; st_name := "all-MiniLM-L6-v2" |}.

Definition loaded0 : store := {| next_id := 1; models := {[ 0%nat := model0 ]} |}.

(** ** Reading a trace *)

(** The set-up steps of [main], in the order the source lists them. *)
Inductive step : Type :=
  | StepSetupDatabase
  | StepCreateVectorDb
  | StepCreateKnowledgeBase
  | StepStorage
  | StepSession
  | StepCliApp.

Definition step_index (st : step) : nat :=
  match st with
  | StepSetupDatabase => 1
  | StepCreateVectorDb => 2
  | StepCreateKnowledgeBase => 3
  | StepStorage => 4
  | StepSession => 5
  | StepCliApp => 6
  end.

(** The step of [main] a library call belongs to.  Log lines and the calls
    of the embedder are not calls of [main]. *)
Definition step_of (ev : event) : option step :=
  match ev with
  | EvCreateEngine _ | EvConnect | EvExecute _ | EvCommit | EvClose => Some StepSetupDatabase
  | EvPgVector2 _ => Some StepCreateVectorDb
  | EvPDFUrlKnowledgeBase _ | EvLoad _ _ => Some StepCreateKnowledgeBase
  | EvPgAssistantStorage _ => Some StepStorage
  | EvGetAllRunIds _ _ | EvAssistant _ => Some StepSession
  | EvCliApp _ _ => Some StepCliApp
  | Log _ _ | EvSentenceTransformer _ | EvEncode _ _ => None
  end.

(** The steps of a trace, in order of occurrence. *)
Definition steps (evs : list event) : list step := omap step_of evs.

(** No step after a later one. *)
Definition in_order (sts : list step) : Prop :=
  StronglySorted (fun a b => (step_index a <= step_index b)%nat) sts.

(** The calls made on the database connection. *)
Definition is_connection_call (ev : event) : bool :=
  match ev with
  | EvConnect | EvExecute _ | EvCommit | EvClose => true
  | _ => false
  end.

Definition connection_calls (evs : list event) : list event :=
  filter (fun ev => is_connection_call ev = true) evs.

(** ** More worlds and the objects [main] builds *)

(** A world given by what the five calls of [setup_database] do; every
    other library call returns. *)
Definition db_world (engine connect execute commit close : option exn) : Externals :=
  {| SentenceTransformer_init := fun _ => None;
     encode := fun _ _ => inr (replicate 384 0.5%float);
     create_engine := fun _ => engine;
     engine_connect := connect;
     conn_execute := fun _ => execute;
     conn_commit := commit;
     conn_close := close;
     PgVector2_init := fun _ => None;
     PDFUrlKnowledgeBase_init := fun _ => None;
     knowledge_base_load := fun _ _ => None;
     PgAssistantStorage_init := fun _ => None;
     get_all_run_ids := fun _ _ => inr ["run-7"; "run-3"];
     Assistant_init := fun kw => inr (default "generated-run" (arg_run_id kw));
     cli_app := fun _ _ => None |}.

(** A world given by what the model constructor and [encode] do. *)
Definition model_world (init : option exn) (vec : exn + list float) : Externals :=
  {| SentenceTransformer_init := fun _ => init;
     encode := fun _ _ => vec;
     create_engine := fun _ => None;
     engine_connect := None;
     conn_execute := fun _ => None;
     conn_commit := None;
     conn_close := None;
     PgVector2_init := fun _ => None;
     PDFUrlKnowledgeBase_init := fun _ => None;
     knowledge_base_load := fun _ _ => None;
     PgAssistantStorage_init := fun _ => None;
     get_all_run_ids := fun _ _ => inr ["run-7"; "run-3"];
     Assistant_init := fun kw => inr (default "generated-run" (arg_run_id kw));
     cli_app := fun _ _ => None |}.

(** A world whose interactive loop is interrupted from the keyboard. *)
Definition interrupted : Externals :=
  {| SentenceTransformer_init := fun _ => None;
     encode := fun _ _ => inr (replicate 384 0.5%float);
     create_engine := fun _ => None;
     engine_connect := None;
     conn_execute := fun _ => None;
     conn_commit := None;
     conn_close := None;
     PgVector2_init := fun _ => None;
     PDFUrlKnowledgeBase_init := fun _ => None;
     knowledge_base_load := fun _ _ => None;
     PgAssistantStorage_init := fun _ => None;
     get_all_run_ids := fun _ _ => inr ["run-7"; "run-3"];
     Assistant_init := fun kw => inr (default "generated-run" (arg_run_id kw));
     cli_app := fun _ _ => Some KeyboardInterrupt |}.

(** The vector store, the storage handle and the keyword arguments of the
    assistant that [main] builds when it starts from the store [s]. *)
Definition main_vector_db (s : store) : PgVector2 :=
  {| collection := collection_name config;
     vdb_url := db_url config;
     embedder := {| hf_id := next_id s; model_name := embedder_model config |};
     dim := embedder_dim config |}.

Definition main_storage : PgAssistantStorage :=
  {| storage_table_name := table_name config;
     storage_db_url := db_url config |}.

Definition main_kwargs (s : store) (rid : option string) (user_id : string)
    : Assistant_kwargs :=
  {| arg_run_id := rid;
     arg_user_id := user_id;
     arg_knowledge_base := knowledge_base0 (main_vector_db s);
     arg_storage := main_storage;
     arg_tools := [];
     arg_show_tool_calls := true;
     arg_read_chat_history := true |}.

(** [e] is what some library call answers with in the world [ext]. *)
Definition raised_by_library (ext : Externals) (e : exn) : Prop :=
  (exists name, SentenceTransformer_init ext name = Some e)
  \/ (exists m text, encode ext m text = inl e)
  \/ (exists url, create_engine ext url = Some e)
  \/ engine_connect ext = Some e
  \/ (exists sql, conn_execute ext sql = Some e)
  \/ conn_commit ext = Some e
  \/ conn_close ext = Some e
  \/ (exists v, PgVector2_init ext v = Some e)
  \/ (exists kb, PDFUrlKnowledgeBase_init ext kb = Some e)
  \/ (exists kb recreate, knowledge_base_load ext kb recreate = Some e)
  \/ (exists st, PgAssistantStorage_init ext st = Some e)
  \/ (exists st user_id, get_all_run_ids ext st user_id = inl e)
  \/ (exists kw, Assistant_init ext kw = inl e)
  \/ (exists a markdown, cli_app ext a markdown = Some e).

(** An error line of the log. *)
Definition is_error_log (ev : event) : Prop := exists msg, ev = Log ERROR msg.

(** ** Symbolic execution

    The script has no loops: running it from a symbolic store, with a case
    split at each library answer and at each [except] clause, ends in finitely
    many paths, each with an explicit list of events. *)

Ltac unfold_script :=
  unfold main, setup_database, setup_database_body, create_vector_db,
    create_knowledge_base, create_knowledge_base_body, manage_session_state,
    new_Assistant, HfEmbedder_init, set_model, fresh, sys_exit,
    try_except, finally, call, call_val, logger_info, logger_error, emit,
    bind, after, ret, raise.

Ltac split_on_answer :=
  match goal with
  | |- context [negb ?b] => is_var b; destruct b
  | |- context [match ?x with _ => _ end] =>
      lazymatch x with
      | context [match _ with _ => _ end] => fail
      | _ => destruct x eqn:?
      end
  | |- context [if ?x then _ else _] =>
      lazymatch x with
      | context [match _ with _ => _ end] => fail
      | _ => destruct x eqn:?
      end
  end.

Ltac run_script :=
  unfold_script; simpl; repeat (split_on_answer; simpl).

(** Membership in an explicit list, case by case. *)
Ltac pick_event H :=
  repeat (apply elem_of_cons in H as [H|H]; [try discriminate H|]);
  try (by apply elem_of_nil in H).

(** An event of a given shape in an explicit list. *)
Ltac find_event :=
  repeat first [apply list_elem_of_here | apply list_elem_of_further].

(** Symbolic execution of one run [r] under a property that is looked at
    only once a path has ended. *)
Ltac run_under r :=
  pattern r;
  let Q := fresh "Q" in
  match goal with |- ?P _ => set (Q := P) end;
  unfold_script; simpl; repeat (split_on_answer; simpl);
  subst Q; cbv beta; simpl.


(** ** The embedding adapter *)

Section Embedder.

Variable ext : Externals.

(** An access that finds [_model] set returns it: no log line, no call, the
    store as it was. *)
Lemma model_cached (self : HfEmbedder) (s : store) (m : SentenceTransformer) :
  models s !! hf_id self = Some m -> model ext self s = Run (Return m) s [].
Proof.
  intros Hm. unfold model, bind, get_model. rewrite Hm. done.
Qed.

(** An access that finds [_model] unset logs, builds the model and stores
    it; when the constructor raises, nothing is stored. *)
Lemma model_load (self : HfEmbedder) (s : store) :
  models s !! hf_id self = None ->
  model ext self s =
    match SentenceTransformer_init ext (model_name self) with
    | None =>
        Run (Return {| st_id := next_id s; st_name := model_name self |})
            {| next_id := S (next_id s);
               models := <[hf_id self := {| st_id := next_id s; st_name := model_name self |}]>
                           (models s) |}
            [Log INFO ("Loading embedding model: " +:+ model_name self);
             EvSentenceTransformer (model_name self)]
    | Some e =>
        Run (Raise e) s
            [Log INFO ("Loading embedding model: " +:+ model_name self);
             EvSentenceTransformer (model_name self)]
    end.
Proof.
  intros Hm. unfold model, bind, get_model. rewrite Hm.
  unfold new_SentenceTransformer, call, logger_info, emit, bind, fresh, set_model,
    after, ret, raise.
  by destruct (SentenceTransformer_init ext (model_name self)).
Qed.

(** After an access that returned, [_model] holds what was returned. *)
Lemma model_stored (self : HfEmbedder) (s s1 : store) (m : SentenceTransformer)
    (evs : list event) :
  model ext self s = Run (Return m) s1 evs -> models s1 !! hf_id self = Some m.
Proof.
  intros Hrun. destruct (models s !! hf_id self) as [m0|] eqn:Hm.
  - rewrite (model_cached _ _ _ Hm) in Hrun. by simplify_eq.
  - rewrite (model_load _ _ Hm) in Hrun.
    destruct (SentenceTransformer_init ext (model_name self)); simplify_eq.
    simpl. apply lookup_insert_eq.
Qed.

(** C7. The property [HfEmbedder.model] memoizes: a new adapter holds no
    model; an access that finds no stored model logs, builds the
    [SentenceTransformer] for [model_name] and stores it in the adapter; an access that finds a stored model returns it
    with no log line and no construction, and leaves the store as it was; so
    an access that follows one that returned yields the same model object
    from an unchanged store, and two accesses in a row make the calls of
    one. *)
Theorem model_memoizes (self : HfEmbedder) :
  (forall s, result (HfEmbedder_init s) = Return self ->
     models (final (HfEmbedder_init s)) !! hf_id self = None)
  /\ (forall s, models s !! hf_id self = None ->
     SentenceTransformer_init ext (model_name self) = None ->
     model ext self s =
       Run (Return {| st_id := next_id s; st_name := model_name self |})
           {| next_id := S (next_id s);
              models := <[hf_id self := {| st_id := next_id s; st_name := model_name self |}]>
                          (models s) |}
           [Log INFO ("Loading embedding model: " +:+ model_name self);
            EvSentenceTransformer (model_name self)])
  /\ (forall s m, models s !! hf_id self = Some m ->
        model ext self s = Run (Return m) s [])
  /\ (forall s m s1 evs, model ext self s = Run (Return m) s1 evs ->
        models s1 !! hf_id self = Some m
        /\ model ext self s1 = Run (Return m) s1 []
        /\ (model ext self ;; model ext self) s = Run (Return m) s1 evs).
Proof.
  split; [|split; [|split]].
  - intros s [= <-]. simpl. apply lookup_delete_eq.
  - intros s Hm Hinit. by rewrite (model_load _ _ Hm), Hinit.
  - apply model_cached.
  - intros s m s1 evs Hrun. pose proof (model_stored _ _ _ _ _ Hrun) as Hst.
    split; [done|]. split; [by apply model_cached|].
    unfold bind. rewrite Hrun, (model_cached _ _ _ Hst). simpl.
    by rewrite app_nil_r.
Qed.

(** The [try] block, once the model is at hand. *)
Lemma body_run (self : HfEmbedder) (text : string) (s s1 : store)
    (m : SentenceTransformer) (evs : list event) :
  model ext self s = Run (Return m) s1 evs ->
  get_embedding_and_usage_body ext self text s =
    match encode ext m text with
    | inl e => Run (Raise e) s1 (evs ++ [EvEncode m text])
    | inr v =>
        if bool_decide (Z.of_nat (length v) ≠ embedder_dim config) then
          Run (Raise (ValueError "Embedding dimension mismatch")) s1
              (evs ++ [EvEncode m text;
                       Log ERROR ("Embedding dimension mismatch: Expected "
                                  +:+ pretty (embedder_dim config) +:+ ", got "
                                  +:+ pretty (Z.of_nat (length v)))])
        else Run (Return (v, usage_dict self)) s1 (evs ++ [EvEncode m text])
    end.
Proof.
  intros Hm. unfold get_embedding_and_usage_body. unfold bind at 1. rewrite Hm.
  unfold call_val, bind, emit, logger_error, emit, after, ret, raise.
  destruct (encode ext m text) as [e|v]; [done|].
  by destruct (bool_decide _).
Qed.

(** The [try] block, when the model cannot be had. *)
Lemma body_model_fails (self : HfEmbedder) (text : string) (s s1 : store) (e : exn)
    (evs : list event) :
  model ext self s = Run (Raise e) s1 evs ->
  get_embedding_and_usage_body ext self text s = Run (Raise e) s1 evs.
Proof.
  intros Hm. unfold get_embedding_and_usage_body. unfold bind at 1. by rewrite Hm.
Qed.

(** The handler around the [try] block. *)
Lemma get_embedding_and_usage_run (self : HfEmbedder) (text : string) (s : store) :
  get_embedding_and_usage ext self text s =
    match get_embedding_and_usage_body ext self text s with
    | Run (Return r) s1 evs => Run (Return r) s1 evs
    | Run (Raise e) s1 evs =>
        Run (Raise e) s1
            (if isinstance_Exception e
             then evs ++ [Log ERROR ("Embedding generation failed: " +:+ str e)]
             else evs)
    end.
Proof.
  unfold get_embedding_and_usage, try_except.
  destruct (get_embedding_and_usage_body ext self text s) as [[r|e] s1 evs]; [done|].
  by destruct (isinstance_Exception e).
Qed.

(** What the [try] block can raise: the [ValueError] of the dimension check,
    or what the model constructor or [encode] raised. *)
Lemma body_raises (self : HfEmbedder) (text : string) (s : store) (e : exn) :
  result (get_embedding_and_usage_body ext self text s) = Raise e ->
  e = ValueError "Embedding dimension mismatch"
  \/ SentenceTransformer_init ext (model_name self) = Some e
  \/ exists m, encode ext m text = inl e.
Proof.
  destruct (model ext self s) as [[m|e0] s1 evs] eqn:Hm.
  - rewrite (body_run _ _ _ _ _ _ Hm).
    destruct (encode ext m text) as [e1|v] eqn:Henc.
    + intros [= <-]. right; right. by exists m.
    + destruct (bool_decide _); intros [= <-]. by left.
  - rewrite (body_model_fails _ _ _ _ _ _ Hm). intros [= <-].
    destruct (models s !! hf_id self) as [m0|] eqn:Hc.
    + by rewrite (model_cached _ _ _ Hc) in Hm.
    + rewrite (model_load _ _ Hc) in Hm.
      destruct (SentenceTransformer_init ext (model_name self)); simplify_eq.
      right; by left.
Qed.

(** What the [try] block returns: the vector [encode] gave, of the
    configured length, and the usage dict. *)
Lemma body_returns (self : HfEmbedder) (text : string) (s : store)
    (r : list float * pyobj) :
  result (get_embedding_and_usage_body ext self text s) = Return r ->
  r.2 = usage_dict self
  /\ Z.of_nat (length r.1) = embedder_dim config
  /\ exists m, encode ext m text = inr r.1.
Proof.
  destruct (model ext self s) as [[m|e0] s1 evs] eqn:Hm.
  - rewrite (body_run _ _ _ _ _ _ Hm).
    destruct (encode ext m text) as [e1|v] eqn:Henc; [done|].
    destruct (bool_decide _) eqn:Hd; intros [= <-]. simpl.
    apply bool_decide_eq_false in Hd.
    split; [done|]. split; [|by exists m].
    by destruct (decide (Z.of_nat (length v) = embedder_dim config)).
  - by rewrite (body_model_fails _ _ _ _ _ _ Hm).
Qed.

(** C1. When the model returns, for a text, a vector whose length differs
    from [config.embedder_dim] (384), [get_embedding_and_usage] logs the
    mismatch as an error and raises [ValueError] (which its own handler logs
    once more on the way out); when the length equals [embedder_dim] no
    error is raised or logged and that vector is returned. *)
Theorem dimension_mismatch_raises (self : HfEmbedder) (text : string)
    (s s1 : store) (m : SentenceTransformer) (evs : list event) (v : list float) :
  model ext self s = Run (Return m) s1 evs ->
  encode ext m text = inr v ->
  embedder_dim config = 384
  /\ (Z.of_nat (length v) ≠ embedder_dim config ->
        get_embedding_and_usage ext self text s =
          Run (Raise (ValueError "Embedding dimension mismatch")) s1
              (evs ++
               [EvEncode m text;
                Log ERROR ("Embedding dimension mismatch: Expected "
                           +:+ pretty (embedder_dim config) +:+ ", got "
                           +:+ pretty (Z.of_nat (length v)));
                Log ERROR "Embedding generation failed: Embedding dimension mismatch"]))
  /\ (Z.of_nat (length v) = embedder_dim config ->
        get_embedding_and_usage ext self text s =
          Run (Return (v, usage_dict self)) s1 (evs ++ [EvEncode m text])).
Proof.
  intros Hm Henc. split; [done|].
  rewrite get_embedding_and_usage_run, (body_run _ _ _ _ _ _ Hm), Henc.
  split; intros Hlen.
  - rewrite bool_decide_eq_true_2 by done. simpl. by rewrite <- app_assoc.
  - rewrite bool_decide_eq_false_2; [done|]. by intros Hne.
Qed.

(** C8. Whatever the [try] block of [get_embedding_and_usage] raises leaves
    the function as the same exception: an [Exception] is logged first, and
    nothing else happens; the function returns a result only when the block
    returned it, and it raises [SystemExit] only when a library call inside
    raised it. *)
Theorem embedding_failure_reraised (self : HfEmbedder) (text : string) (s : store) :
  result (get_embedding_and_usage ext self text s) =
    result (get_embedding_and_usage_body ext self text s)
  /\ (forall e s1 evs,
        get_embedding_and_usage_body ext self text s = Run (Raise e) s1 evs ->
        isinstance_Exception e = true ->
        get_embedding_and_usage ext self text s =
          Run (Raise e) s1
              (evs ++ [Log ERROR ("Embedding generation failed: " +:+ str e)]))
  /\ (forall e,
        result (get_embedding_and_usage_body ext self text s) = Raise e ->
        isinstance_Exception e = false ->
        get_embedding_and_usage ext self text s =
          get_embedding_and_usage_body ext self text s)
  /\ (forall r,
        result (get_embedding_and_usage_body ext self text s) = Return r ->
        get_embedding_and_usage ext self text s =
          get_embedding_and_usage_body ext self text s)
  /\ (forall code,
        result (get_embedding_and_usage ext self text s) = Raise (SystemExit code) ->
        SentenceTransformer_init ext (model_name self) = Some (SystemExit code)
        \/ exists m, encode ext m text = inl (SystemExit code)).
Proof.
  pose proof (body_raises self text s) as Hraises.
  rewrite get_embedding_and_usage_run.
  destruct (get_embedding_and_usage_body ext self text s) as [[r|e] s1 evs]; simpl in *.
  - repeat split; try done; intros; simplify_eq.
  - split; [done|]. split; [|split; [|split]].
    + intros e' s1' evs' ? He'. simplify_eq. by rewrite He'.
    + intros e' ? He'. simplify_eq. by rewrite He'.
    + done.
    + intros code ?. simplify_eq.
      destruct (Hraises _ eq_refl) as [?|[?|?]]; [done|by left|by right].
Qed.

(** C10. Every result [get_embedding_and_usage] returns is a pair whose
    second component is the dict with the adapter's [model_name] and a usage
    of zero total tokens, whatever the text and the embedding; the first
    component is the vector the model gave for the text. *)
Theorem usage_reports_zero_tokens (self : HfEmbedder) (text : string)
    (s : store) (r : list float * pyobj) :
  result (get_embedding_and_usage ext self text s) = Return r ->
  r.2 = PyDict [("model", PyStr (model_name self));
                ("usage", PyDict [("total_tokens", PyInt 0)])]
  /\ exists m, encode ext m text = inr r.1.
Proof.
  pose proof (body_returns self text s r) as Hreturns.
  rewrite get_embedding_and_usage_run.
  destruct (get_embedding_and_usage_body ext self text s) as [[r0|e] s0 evs];
    simpl in *; intros Hrun; simplify_eq.
  destruct (Hreturns eq_refl) as (Husage & _ & Henc).
  by rewrite Husage.
Qed.

End Embedder.

Lemma model_memoizes_witness :
  model calm embedder0 boot =
    Run (Return model0) loaded0
        [Log INFO "Loading embedding model: all-MiniLM-L6-v2";
         EvSentenceTransformer "all-MiniLM-L6-v2"]
  /\ model calm embedder0 loaded0 = Run (Return model0) loaded0 []
  /\ (model calm embedder0 ;; model calm embedder0) boot = model calm embedder0 boot.
Proof.
  pose proof (model_memoizes calm embedder0) as (_ & Hload & _ & Hagain).
  assert (Hfirst : model calm embedder0 boot =
    Run (Return model0) loaded0
        [Log INFO "Loading embedding model: all-MiniLM-L6-v2";
         EvSentenceTransformer "all-MiniLM-L6-v2"]).
  { apply (Hload boot); reflexivity. }
  destruct (Hagain _ _ _ _ Hfirst) as (_ & Hsecond & Htwice).
  split; [exact Hfirst|]. split; [exact Hsecond|].
  rewrite Htwice. symmetry. exact Hfirst.
Defined.

Lemma dimension_mismatch_raises_witness :
  get_embedding_and_usage short_model embedder0 "hello" boot =
    Run (Raise (ValueError "Embedding dimension mismatch")) loaded0
        [Log INFO "Loading embedding model: all-MiniLM-L6-v2";
         EvSentenceTransformer "all-MiniLM-L6-v2";
         EvEncode model0 "hello";
         Log ERROR "Embedding dimension mismatch: Expected 384, got 3";
         Log ERROR "Embedding generation failed: Embedding dimension mismatch"]
  /\ get_embedding_and_usage calm embedder0 "hello" boot =
       Run (Return (replicate 384 0.5%float, usage_dict embedder0)) loaded0
           [Log INFO "Loading embedding model: all-MiniLM-L6-v2";
            EvSentenceTransformer "all-MiniLM-L6-v2";
            EvEncode model0 "hello"].
Proof.
  split.
  - pose proof (dimension_mismatch_raises short_model embedder0 "hello" boot loaded0 model0
                  [Log INFO "Loading embedding model: all-MiniLM-L6-v2";
                   EvSentenceTransformer "all-MiniLM-L6-v2"]
                  (replicate 3 0.5%float) eq_refl eq_refl) as (_ & Hne & _).
    rewrite Hne; [reflexivity|]. vm_compute. discriminate.
  - pose proof (dimension_mismatch_raises calm embedder0 "hello" boot loaded0 model0
                  [Log INFO "Loading embedding model: all-MiniLM-L6-v2";
                   EvSentenceTransformer "all-MiniLM-L6-v2"]
                  (replicate 384 0.5%float) eq_refl eq_refl) as (_ & _ & Heq).
    rewrite Heq; reflexivity.
Defined.

Lemma embedding_failure_reraised_witness :
  get_embedding_and_usage broken_model embedder0 "hello" boot =
    Run (Raise (OtherException "RuntimeError" "out of memory")) loaded0
        [Log INFO "Loading embedding model: all-MiniLM-L6-v2";
         EvSentenceTransformer "all-MiniLM-L6-v2";
         EvEncode model0 "hello";
         Log ERROR "Embedding generation failed: out of memory"].
Proof.
  pose proof (embedding_failure_reraised broken_model embedder0 "hello" boot)
    as (_ & Hlogged & _).
  rewrite (Hlogged (OtherException "RuntimeError" "out of memory") loaded0
             [Log INFO "Loading embedding model: all-MiniLM-L6-v2";
              EvSentenceTransformer "all-MiniLM-L6-v2";
              EvEncode model0 "hello"]); reflexivity.
Defined.

Lemma usage_reports_zero_tokens_witness :
  result (get_embedding_and_usage calm embedder0 "hello" boot) =
    Return (replicate 384 0.5%float, usage_dict embedder0)
  /\ usage_dict embedder0 =
       PyDict [("model", PyStr "all-MiniLM-L6-v2");
               ("usage", PyDict [("total_tokens", PyInt 0)])].
Proof.
  assert (Hrun : result (get_embedding_and_usage calm embedder0 "hello" boot) =
                   Return (replicate 384 0.5%float, usage_dict embedder0))
    by reflexivity.
  split; [exact Hrun|].
  exact (proj1 (usage_reports_zero_tokens calm embedder0 "hello" boot _ Hrun)).
Defined.

(** ** Database set-up, knowledge base and [main] *)

Section Setup.

Variable ext : Externals.

(** What [main] does once the knowledge base is loaded. *)
Lemma main_unfold (new_session : bool) (user_id : string) (s : store) :
  main ext new_session user_id s =
    match setup_database ext s with
    | Run (Raise e) s1 evs1 => Run (Raise e) s1 evs1
    | Run (Return _) s1 evs1 =>
        after evs1
          match create_vector_db ext s1 with
          | Run (Raise e) s2 evs2 => Run (Raise e) s2 evs2
          | Run (Return vdb) s2 evs2 =>
              after evs2
                match create_knowledge_base ext vdb s2 with
                | Run (Raise e) s3 evs3 => Run (Raise e) s3 evs3
                | Run (Return knowledge_base) s3 evs3 =>
                    let storage := {| storage_table_name := table_name config;
                                      storage_db_url := db_url config |} in
                    after evs3
                      ((call (EvPgAssistantStorage storage)
                             (PgAssistantStorage_init ext storage) ;;
                        rid <- manage_session_state ext storage new_session user_id ;;
                        assistant <- new_Assistant ext rid user_id knowledge_base storage ;;
                        logger_info ("Starting assistant session: " +:+ run_id assistant) ;;
                        call (EvCliApp assistant true) (cli_app ext assistant true)) s3)
                end
          end
    end.
Proof. reflexivity. Qed.

(** C2. When the [try] block of [setup_database] raises a
    [SQLAlchemyError], or the [try] block of [create_knowledge_base] raises
    any [Exception], the function logs the error and calls [sys.exit(1)]: it
    neither returns nor passes the caught exception on, and in [main] the
    [SystemExit] leaves the program with nothing run after it, so that the
    process ends with status 1. *)
Theorem setup_failure_exits :
  (forall s e s1 evs,
     setup_database_body ext s = Run (Raise e) s1 evs ->
     isinstance_SQLAlchemyError e = true ->
     setup_database ext s =
       Run (Raise (SystemExit 1)) s1
           (evs ++ [Log ERROR ("Database setup failed: " +:+ str e)]))
  /\ (forall vdb s e s1 evs,
        create_knowledge_base_body ext vdb s = Run (Raise e) s1 evs ->
        isinstance_Exception e = true ->
        create_knowledge_base ext vdb s =
          Run (Raise (SystemExit 1)) s1
              (evs ++ [Log ERROR ("Knowledge base creation failed: " +:+ str e)]))
  /\ (forall new_session user_id s s1 evs code,
        setup_database ext s = Run (Raise (SystemExit code)) s1 evs ->
        main ext new_session user_id s = Run (Raise (SystemExit code)) s1 evs
        /\ exit_status (main ext new_session user_id s) = code)
  /\ (forall new_session user_id s s1 evs1 vdb s2 evs2 s3 evs3 code,
        setup_database ext s = Run (Return tt) s1 evs1 ->
        create_vector_db ext s1 = Run (Return vdb) s2 evs2 ->
        create_knowledge_base ext vdb s2 = Run (Raise (SystemExit code)) s3 evs3 ->
        main ext new_session user_id s =
          Run (Raise (SystemExit code)) s3 (evs1 ++ evs2 ++ evs3)
        /\ exit_status (main ext new_session user_id s) = code).
Proof.
  split; [|split; [|split]].
  - intros s e s1 evs Hbody Hcatch.
    unfold setup_database, try_except. by rewrite Hbody, Hcatch.
  - intros vdb s e s1 evs Hbody Hcatch.
    unfold create_knowledge_base, try_except. by rewrite Hbody, Hcatch.
  - intros ns uid s s1 evs code Hsetup. unfold exit_status.
    by rewrite main_unfold, Hsetup.
  - intros ns uid s s1 evs1 vdb s2 evs2 s3 evs3 code Hsetup Hvdb Hkb.
    unfold exit_status. by rewrite main_unfold, Hsetup, Hvdb, Hkb.
Qed.

(** C9. [setup_database] uses the connection as one scoped sequence: it
    connects at most once (once whenever the engine could be built), the only
    statement it executes is [CREATE EXTENSION IF NOT EXISTS vector], at most
    once, followed by the commit, and an opened connection is closed last,
    also when the statement or the commit raised; when every call returns
    the calls are exactly connect, execute, commit, close. *)
Theorem setup_database_connection_scope (s : store) :
  connection_calls (events (setup_database ext s)) =
    match create_engine ext (db_url config) with
    | Some _ => []
    | None =>
        match engine_connect ext with
        | Some _ => [EvConnect]
        | None =>
            match conn_execute ext "CREATE EXTENSION IF NOT EXISTS vector" with
            | Some _ =>
                [EvConnect; EvExecute "CREATE EXTENSION IF NOT EXISTS vector"; EvClose]
            | None =>
                [EvConnect; EvExecute "CREATE EXTENSION IF NOT EXISTS vector";
                 EvCommit; EvClose]
            end
        end
    end
  /\ (forall sql, EvExecute sql ∈ events (setup_database ext s) ->
        sql = "CREATE EXTENSION IF NOT EXISTS vector")
  /\ (create_engine ext (db_url config) = None ->
      engine_connect ext = None ->
      conn_execute ext "CREATE EXTENSION IF NOT EXISTS vector" = None ->
      conn_commit ext = None ->
      conn_close ext = None ->
      setup_database ext s =
        Run (Return tt) s
            [Log INFO "Initializing database connection";
             EvCreateEngine (db_url config);
             EvConnect;
             EvExecute "CREATE EXTENSION IF NOT EXISTS vector";
             EvCommit;
             EvClose;
             Log INFO "Database extension setup completed"]).
Proof.
  split; [|split].
  - run_script; reflexivity.
  - intros sql. run_script; intros Hin; pick_event Hin; by simplify_eq.
  - simpl. intros Hengine Hconnect Hexecute Hcommit Hclose.
    unfold_script. simpl.
    by rewrite Hengine, Hconnect, Hexecute, Hcommit, Hclose.
Qed.

(** C5. In every run of [main] the library calls occur in the order of the
    set-up steps: database set-up, vector store, knowledge base, storage
    handle, session (run ids and assistant), interactive loop; no call of an
    earlier step follows a call of a later one, and what a run carries out
    is an initial part of the full sequence (a step that fails ends the
    run).  The interactive loop is entered only after every earlier step
    was carried out in full, and a run of [main] that returns has entered
    it. *)
Theorem main_steps_in_order (new_session : bool) (user_id : string) (s : store) :
  in_order (steps (events (main ext new_session user_id s)))
  /\ steps (events (main ext new_session user_id s))
       `prefix_of`
       replicate 5 StepSetupDatabase
       ++ [StepCreateVectorDb; StepCreateKnowledgeBase; StepCreateKnowledgeBase;
           StepStorage]
       ++ (if new_session then [StepSession] else [StepSession; StepSession])
       ++ [StepCliApp]
  /\ (StepCliApp ∈ steps (events (main ext new_session user_id s)) ->
        steps (events (main ext new_session user_id s)) =
          replicate 5 StepSetupDatabase
          ++ [StepCreateVectorDb; StepCreateKnowledgeBase; StepCreateKnowledgeBase;
              StepStorage]
          ++ (if new_session then [StepSession] else [StepSession; StepSession])
          ++ [StepCliApp])
  /\ (result (main ext new_session user_id s) = Return tt ->
        StepCliApp ∈ steps (events (main ext new_session user_id s))).
Proof.
  unfold in_order.
  destruct (main ext new_session user_id s) as [o s' evs] eqn:Hrun.
  revert Hrun. run_script; intros [= <- <- <-]; simpl; (split; [|split; [|split]]);
    try (intros Hin; pick_event Hin; reflexivity);
    try (intros Hret; (discriminate Hret || set_solver));
    try (eexists; reflexivity);
    repeat (constructor; simpl; try lia).
Qed.

(** C4. Whenever [main] builds the [Assistant], it passes the user id it
    was given, and as [run_id]: the first run id the storage lists for that
    user when [new_session] is false and the list is not empty; [None] when
    [new_session] is true (the storage is then not asked) or the list is
    empty.  A run of [main] that returns has built the [Assistant]. *)
Theorem session_resumed_or_created (new_session : bool) (user_id : string) (s : store) :
  (forall kw, EvAssistant kw ∈ events (main ext new_session user_id s) ->
     arg_user_id kw = user_id
     /\ arg_run_id kw =
          if new_session then None
          else match get_all_run_ids ext
                       {| storage_table_name := table_name config;
                          storage_db_url := db_url config |} user_id with
               | inr (r :: _) => Some r
               | _ => None
               end)
  /\ (new_session = true ->
      forall st uid, EvGetAllRunIds st uid ∉ events (main ext new_session user_id s))
  /\ (result (main ext new_session user_id s) = Return tt ->
      exists kw, EvAssistant kw ∈ events (main ext new_session user_id s)).
Proof.
  destruct (main ext new_session user_id s) as [o s' evs] eqn:Hrun.
  revert Hrun. run_script; intros [= <- <- <-]; simpl; (split; [|split]);
    try (intros kw Hin; pick_event Hin; by simplify_eq);
    try (intros Hns st uid Hin; (discriminate Hns || (pick_event Hin)));
    try (intros Hret; (discriminate Hret || (eexists; find_event))).
Qed.

End Setup.

Lemma setup_failure_exits_witness :
  (main db_down false "default_user" boot =
     Run (Raise (SystemExit 1)) boot
         [Log INFO "Initializing database connection";
          EvCreateEngine "postgresql+psycopg://ai:ai@localhost:5532/ai";
          EvConnect;
          Log ERROR "Database setup failed: connection refused"]
   /\ exit_status (main db_down false "default_user" boot) = 1)
  /\ (main pdf_unreachable false "default_user" boot =
        Run (Raise (SystemExit 1)) after_vector_db0
            ([Log INFO "Initializing database connection";
              EvCreateEngine "postgresql+psycopg://ai:ai@localhost:5532/ai";
              EvConnect;
              EvExecute "CREATE EXTENSION IF NOT EXISTS vector";
              EvCommit;
              EvClose;
              Log INFO "Database extension setup completed"]
             ++ [EvPgVector2 vector_db0]
             ++ [Log INFO "Creating knowledge base";
                 EvPDFUrlKnowledgeBase (knowledge_base0 vector_db0);
                 Log INFO "Loading documents into vector database";
                 EvLoad (knowledge_base0 vector_db0) false;
                 Log ERROR "Knowledge base creation failed: 404 Not Found"])
      /\ exit_status (main pdf_unreachable false "default_user" boot) = 1).
Proof.
  destruct (setup_failure_exits db_down) as (Hdb & _ & Hmain & _).
  destruct (setup_failure_exits pdf_unreachable) as (_ & Hkb & _ & Hmain').
  split.
  - apply Hmain.
    rewrite (Hdb boot (SQLAlchemyError "connection refused") boot
               [Log INFO "Initializing database connection";
                EvCreateEngine "postgresql+psycopg://ai:ai@localhost:5532/ai";
                EvConnect]); reflexivity.
  - apply (Hmain' false "default_user" boot boot _ vector_db0 after_vector_db0);
      [reflexivity|reflexivity|].
    rewrite (Hkb vector_db0 after_vector_db0 (OtherException "HTTPError" "404 Not Found")
               after_vector_db0
               [Log INFO "Creating knowledge base";
                EvPDFUrlKnowledgeBase (knowledge_base0 vector_db0);
                Log INFO "Loading documents into vector database";
                EvLoad (knowledge_base0 vector_db0) false]); reflexivity.
Defined.

Lemma setup_database_connection_scope_witness :
  setup_database calm boot =
    Run (Return tt) boot
        [Log INFO "Initializing database connection";
         EvCreateEngine "postgresql+psycopg://ai:ai@localhost:5532/ai";
         EvConnect;
         EvExecute "CREATE EXTENSION IF NOT EXISTS vector";
         EvCommit;
         EvClose;
         Log INFO "Database extension setup completed"].
Proof.
  destruct (setup_database_connection_scope calm boot) as (_ & _ & Hcalm).
  rewrite Hcalm; reflexivity.
Defined.

Lemma main_steps_in_order_witness :
  steps (events (main calm false "default_user" boot)) =
    [StepSetupDatabase; StepSetupDatabase; StepSetupDatabase; StepSetupDatabase;
     StepSetupDatabase; StepCreateVectorDb; StepCreateKnowledgeBase;
     StepCreateKnowledgeBase; StepStorage; StepSession; StepSession; StepCliApp].
Proof.
  destruct (main_steps_in_order calm false "default_user" boot)
    as (_ & _ & Hfull & Hreturns).
  rewrite Hfull; [reflexivity|]. apply Hreturns. reflexivity.
Defined.

Lemma session_resumed_or_created_witness :
  (exists kw, EvAssistant kw ∈ events (main calm false "default_user" boot)
              /\ arg_run_id kw = Some "run-7")
  /\ (exists kw, EvAssistant kw ∈ events (main first_visit false "default_user" boot)
                 /\ arg_run_id kw = None)
  /\ (exists kw, EvAssistant kw ∈ events (main calm true "default_user" boot)
                 /\ arg_run_id kw = None).
Proof.
  destruct (session_resumed_or_created calm false "default_user" boot) as (Hr & _ & Hb).
  destruct (session_resumed_or_created first_visit false "default_user" boot)
    as (Hr' & _ & Hb').
  destruct (session_resumed_or_created calm true "default_user" boot) as (Hr'' & _ & Hb'').
  split; [|split].
  - destruct (Hb eq_refl) as [kw Hin]. exists kw. split; [done|].
    by destruct (Hr kw Hin) as [_ ->].
  - destruct (Hb' eq_refl) as [kw Hin]. exists kw. split; [done|].
    by destruct (Hr' kw Hin) as [_ ->].
  - destruct (Hb'' eq_refl) as [kw Hin]. exists kw. split; [done|].
    by destruct (Hr'' kw Hin) as [_ ->].
Defined.

(** ** Configuration *)

(** Whatever the [.env] file and the environment hold, the module's
    [config] is [AppConfig()] with no argument. *)
Lemma module_config_ignores_environment (dotenv_file environ : gmap string string) :
  module_config (module_init dotenv_file environ) = AppConfig_init no_kwargs.
Proof. reflexivity. Qed.

(** C6. The defaults of the configuration record are the five values of
    the source; [config], built with no argument, holds exactly them; a field
    of [AppConfig] or of [Settings] for which no value is supplied takes its
    default; and the script passes these values on: the URL to
    [create_engine], the collection name, the dimension and the model name
    to the vector store, the table name to the storage handle. *)
Theorem configuration_defaults :
  config =
    {| db_url := "postgresql+psycopg://ai:ai@localhost:5532/ai";
       collection_name := "science_docs";
       embedder_model := "all-MiniLM-L6-v2";
       embedder_dim := 384;
       table_name := "science_assistant" |}
  /\ (forall kw,
        (kw_db_url kw = None ->
           db_url (AppConfig_init kw) = "postgresql+psycopg://ai:ai@localhost:5532/ai")
        /\ (kw_embedder_model kw = None ->
              embedder_model (AppConfig_init kw) = "all-MiniLM-L6-v2")
        /\ (kw_embedder_dim kw = None -> embedder_dim (AppConfig_init kw) = 384)
        /\ (kw_collection_name kw = None ->
              collection_name (AppConfig_init kw) = "science_docs")
        /\ (kw_table_name kw = None ->
              table_name (AppConfig_init kw) = "science_assistant"))
  /\ (forall int_of_str source,
        (forall name, source name = None) ->
        Settings_init int_of_str source =
          inr {| DB_URL := "postgresql+psycopg://ai:ai@localhost:5532/ai";
                 EMBEDDER_MODEL := "all-MiniLM-L6-v2";
                 EMBEDDING_DIM := 384;
                 COLLECTION_NAME := "science_docs";
                 TABLE_NAME := "science_assistant" |})
  /\ (forall int_of_str source st,
        Settings_init int_of_str source = inr st ->
        (source "DB_URL" = None ->
           DB_URL st = "postgresql+psycopg://ai:ai@localhost:5532/ai")
        /\ (source "EMBEDDER_MODEL" = None -> EMBEDDER_MODEL st = "all-MiniLM-L6-v2")
        /\ (source "EMBEDDING_DIM" = None -> EMBEDDING_DIM st = 384)
        /\ (source "COLLECTION_NAME" = None -> COLLECTION_NAME st = "science_docs")
        /\ (source "TABLE_NAME" = None -> TABLE_NAME st = "science_assistant"))
  /\ (forall ext new_session user_id s,
        (forall url, EvCreateEngine url ∈ events (main ext new_session user_id s) ->
           url = "postgresql+psycopg://ai:ai@localhost:5532/ai")
        /\ (forall v, EvPgVector2 v ∈ events (main ext new_session user_id s) ->
              collection v = "science_docs"
              /\ vdb_url v = "postgresql+psycopg://ai:ai@localhost:5532/ai"
              /\ dim v = 384
              /\ model_name (embedder v) = "all-MiniLM-L6-v2")
        /\ (forall st, EvPgAssistantStorage st ∈ events (main ext new_session user_id s) ->
              st = {| storage_table_name := "science_assistant";
                      storage_db_url := "postgresql+psycopg://ai:ai@localhost:5532/ai" |})).
Proof.
  split; [reflexivity|]. split; [|split; [|split]].
  - intros kw. unfold AppConfig_init. simpl.
    repeat split; intros ->; reflexivity.
  - intros int_of_str source Hnone. unfold Settings_init.
    by rewrite !Hnone.
  - intros int_of_str source st. unfold Settings_init.
    destruct (source "EMBEDDING_DIM") as [raw|] eqn:Hdim;
      [destruct (int_of_str raw)|]; intros Hst; simplify_eq; simpl;
      repeat split; intros Hnone; rewrite ?Hnone; done.
  - intros ext new_session user_id s.
    destruct (main ext new_session user_id s) as [o s' evs] eqn:Hrun.
    revert Hrun. run_script; intros [= <- <- <-]; (split; [|split]);
      intros x Hin; pick_event Hin; by simplify_eq.
Qed.

Lemma configuration_defaults_witness :
  collection_name
    (AppConfig_init {| kw_db_url := Some "postgresql+psycopg://ai:ai@db.internal:5432/kb";
                       kw_collection_name := None;
                       kw_embedder_model := None;
                       kw_embedder_dim := None;
                       kw_table_name := None |}) = "science_docs"
  /\ Settings_init (fun _ => None) (fun _ => None) =
       inr {| DB_URL := "postgresql+psycopg://ai:ai@localhost:5532/ai";
              EMBEDDER_MODEL := "all-MiniLM-L6-v2";
              EMBEDDING_DIM := 384;
              COLLECTION_NAME := "science_docs";
              TABLE_NAME := "science_assistant" |}.
Proof.
  destruct configuration_defaults as (_ & Hfield & Hsettings & _).
  split.
  - apply Hfield. reflexivity.
  - apply Hsettings. reflexivity.
Defined.

(** C3. A [.env] file that sets [DB_URL]: [load_dotenv()] puts the value
    into [os.environ] and [Settings] of [config.py] would take it, but the
    [config] the script reads keeps the default, and [main] hands the default
    URL to [create_engine]. *)
Example dotenv_does_not_reach_config :
  let dotenv_file : gmap string string :=
    {[ "DB_URL" := "postgresql+psycopg://ai:ai@db.internal:5432/kb" ]} in
  os_environ (module_init dotenv_file ∅) !! "DB_URL" =
    Some "postgresql+psycopg://ai:ai@db.internal:5432/kb"
  /\ db_url (module_config (module_init dotenv_file ∅)) =
       "postgresql+psycopg://ai:ai@localhost:5532/ai"
  /\ (forall int_of_str,
        Settings_init int_of_str (settings_source dotenv_file ∅) =
          inr {| DB_URL := "postgresql+psycopg://ai:ai@db.internal:5432/kb";
                 EMBEDDER_MODEL := "all-MiniLM-L6-v2";
                 EMBEDDING_DIM := 384;
                 COLLECTION_NAME := "science_docs";
                 TABLE_NAME := "science_assistant" |})
  /\ events (setup_database calm boot) !! 1%nat =
       Some (EvCreateEngine "postgresql+psycopg://ai:ai@localhost:5532/ai").
Proof.
  cbv zeta. split; [|split; [|split]].
  - by vm_compute.
  - reflexivity.
  - intros int_of_str. by vm_compute.
  - reflexivity.
Qed.

(** ** More on the embedding adapter *)

Section EmbedderStore.

Variable ext : Externals.

(** [get_embedding_and_usage] leaves the store as the access to the model
    left it. *)
Lemma embedding_final (self : HfEmbedder) (text : string) (s : store) :
  final (get_embedding_and_usage ext self text s) = final (model ext self s).
Proof.
  rewrite get_embedding_and_usage_run.
  destruct (model ext self s) as [[m|e] s1 evs] eqn:Hm.
  - rewrite (body_run _ _ _ _ _ _ _ Hm).
    destruct (encode ext m text) as [e|v]; [done|].
    by destruct (bool_decide _).
  - by rewrite (body_model_fails _ _ _ _ _ _ _ Hm).
Qed.

(** The store an access to the model leaves, by what it found. *)
Lemma model_final (self : HfEmbedder) (s : store) :
  final (model ext self s) =
    match models s !! hf_id self, SentenceTransformer_init ext (model_name self) with
    | None, None =>
        {| next_id := S (next_id s);
           models := <[hf_id self := {| st_id := next_id s; st_name := model_name self |}]>
                       (models s) |}
    | _, _ => s
    end.
Proof.
  destruct (models s !! hf_id self) as [m|] eqn:Hc.
  - by rewrite (model_cached _ _ _ _ Hc).
  - rewrite (model_load _ _ _ Hc).
    by destruct (SentenceTransformer_init ext (model_name self)).
Qed.

(** A call with a model at hand: one [encode], then error lines only. *)
Lemma embedding_with_model (self : HfEmbedder) (text : string) (s : store)
    (m : SentenceTransformer) :
  models s !! hf_id self = Some m ->
  final (get_embedding_and_usage ext self text s) = s
  /\ exists rest,
       events (get_embedding_and_usage ext self text s) = EvEncode m text :: rest
       /\ Forall is_error_log rest.
Proof.
  intros Hc. rewrite get_embedding_and_usage_run.
  rewrite (body_run _ _ _ _ _ _ _ (model_cached _ _ _ _ Hc)).
  destruct (encode ext m text) as [e|v]; [|destruct (bool_decide _)]; simpl;
    try destruct (isinstance_Exception _); simpl;
    (split; [done|]); eexists; (split; [reflexivity|]);
    repeat constructor; by eexists.
Qed.

(** X1. A model, once built, serves every later call, also after a call
    that failed in [encode] or in the dimension check: when the model
    constructor returns (or a model is stored already), the adapter holds a
    model after [get_embedding_and_usage], and the next call, for any text,
    starts with [encode] on that model, makes no constructor call, logs
    nothing but errors and leaves the store as it found it. *)
Theorem later_calls_reuse_model (self : HfEmbedder) (text text' : string) (s : store) :
  SentenceTransformer_init ext (model_name self) = None
  \/ is_Some (models s !! hf_id self) ->
  exists m,
    models (final (get_embedding_and_usage ext self text s)) !! hf_id self = Some m
    /\ final (get_embedding_and_usage ext self text'
                (final (get_embedding_and_usage ext self text s)))
       = final (get_embedding_and_usage ext self text s)
    /\ exists rest,
         events (get_embedding_and_usage ext self text'
                   (final (get_embedding_and_usage ext self text s)))
         = EvEncode m text' :: rest
         /\ Forall is_error_log rest.
Proof.
  intros Hok. rewrite (embedding_final self text s), model_final.
  assert (Hstored : exists m,
            match models s !! hf_id self,
                  SentenceTransformer_init ext (model_name self) with
            | None, None =>
                {| next_id := S (next_id s);
                   models := <[hf_id self := {| st_id := next_id s;
                                                st_name := model_name self |}]>
                               (models s) |}
            | _, _ => s
            end.(models) !! hf_id self = Some m).
  { destruct (models s !! hf_id self) as [m|] eqn:Hc.
    - by exists m.
    - destruct Hok as [->|[m Hm]]; [|done].
      eexists. simpl. apply lookup_insert_eq. }
  destruct Hstored as [m Hm]. exists m. split; [done|].
  by apply embedding_with_model.
Qed.

(** X2. A model that cannot be built is not remembered: when the adapter
    holds no model and the constructor raises, [get_embedding_and_usage]
    leaves with that exception (logged when it is an [Exception]), never
    calls [encode], and leaves the store untouched, so that the next call
    tries the constructor again. *)
Theorem failed_load_is_not_cached (self : HfEmbedder) (text : string) (s : store)
    (e : exn) :
  models s !! hf_id self = None ->
  SentenceTransformer_init ext (model_name self) = Some e ->
  get_embedding_and_usage ext self text s =
    Run (Raise e) s
        ([Log INFO ("Loading embedding model: " +:+ model_name self);
          EvSentenceTransformer (model_name self)]
         ++ if isinstance_Exception e
            then [Log ERROR ("Embedding generation failed: " +:+ str e)]
            else []).
Proof.
  intros Hc Hinit.
  pose proof (model_load ext self s Hc) as Hm. rewrite Hinit in Hm.
  rewrite get_embedding_and_usage_run, (body_model_fails _ _ _ _ _ _ _ Hm).
  by destruct (isinstance_Exception e).
Qed.

(** X3. [get_embedding_and_usage] changes the store in one way only: it
    may set the [_model] of its own adapter when that was unset.  The model
    of any other adapter, and a model already stored, stay as they are, and
    object identities are never reused. *)
Theorem embedding_keeps_models (self : HfEmbedder) (text : string) (s : store) :
  (forall i, i <> hf_id self \/ is_Some (models s !! i) ->
     models (final (get_embedding_and_usage ext self text s)) !! i = models s !! i)
  /\ (next_id s <= next_id (final (get_embedding_and_usage ext self text s)))%nat.
Proof.
  rewrite embedding_final, model_final.
  destruct (models s !! hf_id self) as [m|] eqn:Hc;
    [|destruct (SentenceTransformer_init ext (model_name self))]; simpl;
    (split; [|lia]); try done.
  intros i [Hne|[m Hm]].
  - by apply lookup_insert_ne.
  - apply lookup_insert_ne. intros <-. by rewrite Hc in Hm.
Qed.

(** X4. Every vector [get_embedding_and_usage] returns has exactly
    [config.embedder_dim] = 384 components, and it is what [encode]
    answered, for the text given, on the model the adapter holds from then
    on. *)
Theorem returned_embedding_has_configured_length (self : HfEmbedder) (text : string)
    (s : store) (r : list float * pyobj) :
  result (get_embedding_and_usage ext self text s) = Return r ->
  length r.1 = 384%nat
  /\ exists m,
       models (final (get_embedding_and_usage ext self text s)) !! hf_id self = Some m
       /\ encode ext m text = inr r.1.
Proof.
  rewrite embedding_final, get_embedding_and_usage_run.
  destruct (model ext self s) as [[m|e] s1 evs] eqn:Hm.
  - rewrite (body_run _ _ _ _ _ _ _ Hm).
    destruct (encode ext m text) as [e|v] eqn:Henc; [done|].
    destruct (bool_decide _) eqn:Hd; intros [= <-]. simpl.
    apply bool_decide_eq_false in Hd.
    split.
    + destruct (decide (Z.of_nat (length v) = embedder_dim config)) as [Hlen|]; [|done].
      change (embedder_dim config) with 384 in Hlen. lia.
    + exists m. split; [|done]. by apply (model_stored _ _ _ _ _ _ Hm).
  - by rewrite (body_model_fails _ _ _ _ _ _ _ Hm).
Qed.

(** X5. [create_vector_db] does not load the embedding model: it makes
    the single call [PgVector2(...)], the adapter it hands over is named
    after [config.embedder_model] and holds no model, and the first
    [get_embedding_and_usage] on that adapter begins by loading the model. *)
Theorem vector_db_embedder_is_lazy (s s1 : store) (v : PgVector2) (evs : list event) :
  create_vector_db ext s = Run (Return v) s1 evs ->
  evs = [EvPgVector2 v]
  /\ model_name (embedder v) = "all-MiniLM-L6-v2"
  /\ models s1 !! hf_id (embedder v) = None
  /\ forall text, exists rest,
       events (get_embedding_and_usage ext (embedder v) text s1) =
         Log INFO "Loading embedding model: all-MiniLM-L6-v2"
         :: EvSentenceTransformer "all-MiniLM-L6-v2" :: rest.
Proof.
  unfold create_vector_db, HfEmbedder_init, set_model, fresh, call, emit, bind, after,
    ret, raise. simpl.
  destruct (PgVector2_init ext _) eqn:Hinit; simpl; intros [= <- <- <-].
  split; [done|]. split; [done|].
  assert (Hnone : models {| next_id := S (next_id s);
                            models := delete (next_id s) (models s) |}
                    !! next_id s = None) by apply lookup_delete_eq.
  split; [done|]. intros text.
  rewrite get_embedding_and_usage_run.
  pose proof (model_load ext
                {| hf_id := next_id s; model_name := embedder_model config |}
                _ Hnone) as Hm.
  simpl in Hm.
  destruct (SentenceTransformer_init ext "all-MiniLM-L6-v2") as [e|].
  - rewrite (body_model_fails _ _ _ _ _ _ _ Hm).
    destruct (isinstance_Exception e); eexists; reflexivity.
  - rewrite (body_run _ _ _ _ _ _ _ Hm).
    destruct (encode ext _ text) as [e|vec]; [|destruct (bool_decide _)]; simpl;
      try destruct (isinstance_Exception _); eexists; reflexivity.
Qed.

End EmbedderStore.

Lemma later_calls_reuse_model_witness :
  events (get_embedding_and_usage short_model embedder0 "again"
            (final (get_embedding_and_usage short_model embedder0 "hello" boot)))
  = [EvEncode model0 "again";
     Log ERROR "Embedding dimension mismatch: Expected 384, got 3";
     Log ERROR "Embedding generation failed: Embedding dimension mismatch"]
  /\ exists m,
       models (final (get_embedding_and_usage short_model embedder0 "hello" boot))
         !! hf_id embedder0 = Some m
       /\ final (get_embedding_and_usage short_model embedder0 "again"
                   (final (get_embedding_and_usage short_model embedder0 "hello" boot)))
          = final (get_embedding_and_usage short_model embedder0 "hello" boot).
Proof.
  split; [reflexivity|].
  destruct (later_calls_reuse_model short_model embedder0 "hello" "again" boot)
    as (m & Hm & Hfinal & _); [by left|].
  exists m. by split.
Defined.

Lemma failed_load_is_not_cached_witness :
  get_embedding_and_usage
    (model_world (Some (OtherException "OSError" "model not found"))
                 (inr (replicate 384 0.5%float)))
    embedder0 "hello" boot =
    Run (Raise (OtherException "OSError" "model not found")) boot
        [Log INFO "Loading embedding model: all-MiniLM-L6-v2";
         EvSentenceTransformer "all-MiniLM-L6-v2";
         Log ERROR "Embedding generation failed: model not found"].
Proof.
  rewrite (failed_load_is_not_cached
             (model_world (Some (OtherException "OSError" "model not found"))
                          (inr (replicate 384 0.5%float)))
             embedder0 "hello" boot (OtherException "OSError" "model not found"));
    reflexivity.
Defined.

Lemma embedding_keeps_models_witness :
  models (final (get_embedding_and_usage calm {| hf_id := 5; model_name := "other" |}
                   "hello" loaded0)) !! 0%nat = Some model0.
Proof.
  destruct (embedding_keeps_models calm {| hf_id := 5; model_name := "other" |}
              "hello" loaded0) as [Hkept _].
  rewrite Hkept; [reflexivity|]. left. discriminate.
Defined.

Lemma returned_embedding_has_configured_length_witness :
  result (get_embedding_and_usage calm embedder0 "hello" boot) =
    Return (replicate 384 0.5%float, usage_dict embedder0)
  /\ length (replicate 384 0.5%float) = 384%nat.
Proof.
  assert (Hrun : result (get_embedding_and_usage calm embedder0 "hello" boot) =
                   Return (replicate 384 0.5%float, usage_dict embedder0))
    by reflexivity.
  split; [exact Hrun|].
  exact (proj1 (returned_embedding_has_configured_length calm embedder0 "hello" boot
                  _ Hrun)).
Defined.

Lemma vector_db_embedder_is_lazy_witness :
  create_vector_db calm boot = Run (Return vector_db0) after_vector_db0 [EvPgVector2 vector_db0]
  /\ models after_vector_db0 !! hf_id (embedder vector_db0) = None.
Proof.
  assert (Hrun : create_vector_db calm boot =
                   Run (Return vector_db0) after_vector_db0 [EvPgVector2 vector_db0])
    by reflexivity.
  split; [exact Hrun|].
  by destruct (vector_db_embedder_is_lazy calm _ _ _ _ Hrun) as (_ & _ & Hnone & _).
Defined.

(** ** More on the database set-up and the knowledge base *)

Section SetupEdges.

Variable ext : Externals.

(** X6. [setup_database] returns exactly when all five library calls
    (engine, connect, execute, commit, close) return; the line "Database
    extension setup completed" is logged in exactly those runs; and the
    function never touches the store. *)
Theorem setup_database_returns_iff (s : store) :
  final (setup_database ext s) = s
  /\ (result (setup_database ext s) = Return tt <->
        create_engine ext (db_url config) = None
        /\ engine_connect ext = None
        /\ conn_execute ext "CREATE EXTENSION IF NOT EXISTS vector" = None
        /\ conn_commit ext = None
        /\ conn_close ext = None)
  /\ (Log INFO "Database extension setup completed" ∈ events (setup_database ext s) <->
        result (setup_database ext s) = Return tt).
Proof.
  destruct (setup_database ext s) as [o s' evs] eqn:Hrun.
  revert Hrun. run_script; intros [= <- <- <-]; simpl;
    (split; [reflexivity|]); split; split;
    try (intros Hin; pick_event Hin; fail);
    try (intros (? & ? & ? & ? & ?); congruence);
    try discriminate; try done.
  intros _. find_event.
Qed.

(** X7. An exception of [conn.close()] on the way out of the [with] block
    replaces the exception of the block: when the statement raises [e1] and
    closing the connection raises [e2], it is [e2] that the handler of
    [setup_database] sees.  The commit is not attempted; the error line and
    [sys.exit(1)] follow only when [e2] is a [SQLAlchemyError], otherwise
    [e2] leaves the function as it is. *)
Theorem close_failure_replaces_statement_failure (s : store) (e1 e2 : exn) :
  create_engine ext (db_url config) = None ->
  engine_connect ext = None ->
  conn_execute ext "CREATE EXTENSION IF NOT EXISTS vector" = Some e1 ->
  conn_close ext = Some e2 ->
  setup_database ext s =
    Run (if isinstance_SQLAlchemyError e2 then Raise (SystemExit 1) else Raise e2) s
        ([Log INFO "Initializing database connection";
          EvCreateEngine (db_url config);
          EvConnect;
          EvExecute "CREATE EXTENSION IF NOT EXISTS vector";
          EvClose]
         ++ if isinstance_SQLAlchemyError e2
            then [Log ERROR ("Database setup failed: " +:+ str e2)]
            else []).
Proof.
  simpl. intros Hengine Hconnect Hexecute Hclose.
  unfold_script. simpl. rewrite Hengine, Hconnect, Hexecute, Hclose. simpl.
  by destruct (isinstance_SQLAlchemyError e2).
Qed.

(** X8. What is not a [SQLAlchemyError] passes through [setup_database]
    untouched: the function then ends exactly as its [try] block ended, with
    no error line and no [sys.exit]; and whenever the function logs an error
    it ends in [SystemExit(1)]. *)
Theorem setup_database_passes_other_errors (s : store) :
  (forall e, result (setup_database_body ext s) = Raise e ->
     isinstance_SQLAlchemyError e = false ->
     setup_database ext s = setup_database_body ext s)
  /\ (forall msg, Log ERROR msg ∈ events (setup_database ext s) ->
        result (setup_database ext s) = Raise (SystemExit 1)
        /\ last (events (setup_database ext s)) = Some (Log ERROR msg)).
Proof.
  split.
  - intros e. unfold setup_database, try_except.
    destruct (setup_database_body ext s) as [[[]|e0] s1 evs]; [done|].
    simpl. intros [= ->] ->. done.
  - intros msg. destruct (setup_database ext s) as [o s' evs] eqn:Hrun.
    revert Hrun. run_script; intros [= <- <- <-]; simpl;
      intros Hin; pick_event Hin; by simplify_eq.
Qed.


(** X10. What is not an [Exception] ([KeyboardInterrupt], [SystemExit])
    passes through [create_knowledge_base] untouched, with no error line;
    and whenever the function logs an error it ends in [SystemExit(1)],
    returning no knowledge base. *)
Theorem create_knowledge_base_passes_interrupts (vdb : PgVector2) (s : store) :
  (forall e, result (create_knowledge_base_body ext vdb s) = Raise e ->
     isinstance_Exception e = false ->
     create_knowledge_base ext vdb s = create_knowledge_base_body ext vdb s)
  /\ (forall msg, Log ERROR msg ∈ events (create_knowledge_base ext vdb s) ->
        result (create_knowledge_base ext vdb s) = Raise (SystemExit 1)
        /\ last (events (create_knowledge_base ext vdb s)) = Some (Log ERROR msg)).
Proof.
  split.
  - intros e. unfold create_knowledge_base, try_except.
    destruct (create_knowledge_base_body ext vdb s) as [[kb|e0] s1 evs]; [done|].
    simpl. intros [= ->] ->. done.
  - intros msg. destruct (create_knowledge_base ext vdb s) as [o s' evs] eqn:Hrun.
    revert Hrun. run_script; intros [= <- <- <-]; simpl;
      intros Hin; pick_event Hin; by simplify_eq.
Qed.

End SetupEdges.

Lemma close_failure_replaces_statement_failure_witness :
  setup_database
    (db_world None None (Some (SQLAlchemyError "permission denied"))
              None (Some (OtherException "OSError" "broken pipe")))
    boot =
    Run (Raise (OtherException "OSError" "broken pipe")) boot
        [Log INFO "Initializing database connection";
         EvCreateEngine "postgresql+psycopg://ai:ai@localhost:5532/ai";
         EvConnect;
         EvExecute "CREATE EXTENSION IF NOT EXISTS vector";
         EvClose].
Proof.
  rewrite (close_failure_replaces_statement_failure
             (db_world None None (Some (SQLAlchemyError "permission denied"))
                       None (Some (OtherException "OSError" "broken pipe")))
             boot (SQLAlchemyError "permission denied")
             (OtherException "OSError" "broken pipe")); reflexivity.
Defined.

Lemma setup_database_passes_other_errors_witness :
  setup_database
    (db_world (Some (OtherException "ModuleNotFoundError" "No module named 'psycopg'"))
              None None None None)
    boot =
    Run (Raise (OtherException "ModuleNotFoundError" "No module named 'psycopg'")) boot
        [Log INFO "Initializing database connection";
         EvCreateEngine "postgresql+psycopg://ai:ai@localhost:5532/ai"].
Proof.
  destruct (setup_database_passes_other_errors
              (db_world (Some (OtherException "ModuleNotFoundError"
                                 "No module named 'psycopg'"))
                        None None None None) boot) as [Hpass _].
  rewrite (Hpass (OtherException "ModuleNotFoundError" "No module named 'psycopg'"));
    reflexivity.
Defined.

Lemma create_knowledge_base_passes_interrupts_witness :
  create_knowledge_base (world (inr []) None (Some KeyboardInterrupt) (inr []))
    vector_db0 after_vector_db0 =
    Run (Raise KeyboardInterrupt) after_vector_db0
        [Log INFO "Creating knowledge base";
         EvPDFUrlKnowledgeBase (knowledge_base0 vector_db0);
         Log INFO "Loading documents into vector database";
         EvLoad (knowledge_base0 vector_db0) false].
Proof.
  destruct (create_knowledge_base_passes_interrupts
              (world (inr []) None (Some KeyboardInterrupt) (inr []))
              vector_db0 after_vector_db0) as [Hpass _].
  rewrite (Hpass KeyboardInterrupt); reflexivity.
Defined.

(** ** More on [main] *)

Section MainRuns.

Variable ext : Externals.


(** X12. [main] logs at level ERROR only on its way out through
    [sys.exit(1)]: an error line is always the last event of the run, and
    the run then ends in [SystemExit(1)], with exit status 1. *)
Theorem main_error_log_exits (new_session : bool) (user_id : string) (s : store) :
  forall msg, Log ERROR msg ∈ events (main ext new_session user_id s) ->
    result (main ext new_session user_id s) = Raise (SystemExit 1)
    /\ last (events (main ext new_session user_id s)) = Some (Log ERROR msg)
    /\ exit_status (main ext new_session user_id s) = 1.
Proof.
  intros msg. unfold exit_status.
  run_under (main ext new_session user_id s);
    intros Hin; pick_event Hin; by simplify_eq.
Qed.

(** X13. [main] raises nothing of its own making except [SystemExit(1)]:
    an exception that leaves [main] is either [SystemExit(1)] or the very
    exception some library call raised. *)
Theorem main_raises_only_library_errors (new_session : bool) (user_id : string)
    (s : store) (e : exn) :
  result (main ext new_session user_id s) = Raise e ->
  e = SystemExit 1 \/ raised_by_library ext e.
Proof.
  unfold raised_by_library.
  run_under (main ext new_session user_id s); intros [= <-];
    first [by left | right; eauto 20].
Qed.

(** X14. [main] wires its objects together: the interactive loop runs,
    with [markdown=True], on the assistant that was built, under the run id
    the framework gave it and that the log line announces; the assistant is
    built with no tools, [show_tool_calls] and [read_chat_history] set, on
    the knowledge base that was loaded (never with [recreate]) and on the
    storage handle that was constructed. *)
Theorem assistant_is_wired (new_session : bool) (user_id : string) (s : store) :
  (forall a markdown, EvCliApp a markdown ∈ events (main ext new_session user_id s) ->
     markdown = true
     /\ EvAssistant (kwargs a) ∈ events (main ext new_session user_id s)
     /\ Assistant_init ext (kwargs a) = inr (run_id a)
     /\ Log INFO ("Starting assistant session: " +:+ run_id a)
          ∈ events (main ext new_session user_id s))
  /\ (forall kw, EvAssistant kw ∈ events (main ext new_session user_id s) ->
        arg_tools kw = []
        /\ arg_show_tool_calls kw = true
        /\ arg_read_chat_history kw = true
        /\ EvLoad (arg_knowledge_base kw) false ∈ events (main ext new_session user_id s)
        /\ EvPgVector2 (vector_db (arg_knowledge_base kw))
             ∈ events (main ext new_session user_id s)
        /\ EvPgAssistantStorage (arg_storage kw)
             ∈ events (main ext new_session user_id s))
  /\ (forall kb recreate, EvLoad kb recreate ∈ events (main ext new_session user_id s) ->
        recreate = false).
Proof.
  run_under (main ext new_session user_id s);
    (split;
     [ intros a markdown Hin; pick_event Hin; simplify_eq; simpl;
       repeat split; try done; find_event
     | split;
       [ intros kw Hin; pick_event Hin; simplify_eq; simpl;
         repeat split; try done; find_event
       | intros kb recreate Hin; pick_event Hin; by simplify_eq ] ]).
Qed.

(** X15. The line "Resuming existing session: r" is in the log exactly
    when [main] builds the assistant with [run_id = r]. *)
Theorem resume_logged_iff_resumed (new_session : bool) (user_id : string) (s : store)
    (r : string) :
  Log INFO ("Resuming existing session: " +:+ r) ∈ events (main ext new_session user_id s)
  <-> exists kw, EvAssistant kw ∈ events (main ext new_session user_id s)
                 /\ arg_run_id kw = Some r.
Proof.
  run_under (main ext new_session user_id s);
    (split;
     [ intros Hin; cbv [String.append] in Hin; pick_event Hin; simplify_eq;
       eexists; split; find_event; try reflexivity
     | intros (kw & Hin & Hrid); pick_event Hin; simplify_eq; simpl in Hrid;
       simplify_eq; find_event ]).
Qed.

End MainRuns.


Lemma main_raises_only_library_errors_witness :
  result (main interrupted false "default_user" boot) = Raise KeyboardInterrupt
  /\ raised_by_library interrupted KeyboardInterrupt.
Proof.
  assert (Hrun : result (main interrupted false "default_user" boot)
                 = Raise KeyboardInterrupt) by reflexivity.
  split; [exact Hrun|].
  destruct (main_raises_only_library_errors interrupted false "default_user" boot
              KeyboardInterrupt Hrun) as [Hexit|Hlib]; [discriminate Hexit|exact Hlib].
Defined.

(** ** More on [Settings] *)



(** ** Runs that show the statements above at work *)

Lemma setup_database_returns_iff_witness :
  result (setup_database calm boot) = Return tt
  /\ result (setup_database db_down boot) <> Return tt.
Proof.
  destruct (setup_database_returns_iff calm boot) as (_ & [_ Hreturns] & _).
  destruct (setup_database_returns_iff db_down boot) as (_ & [Hcalls _] & _).
  split.
  - apply Hreturns. by repeat split.
  - intros Hret. destruct (Hcalls Hret) as (_ & Hconnect & _). discriminate Hconnect.
Defined.


Lemma main_error_log_exits_witness :
  result (main db_down false "default_user" boot) = Raise (SystemExit 1)
  /\ last (events (main db_down false "default_user" boot)) =
       Some (Log ERROR "Database setup failed: connection refused")
  /\ exit_status (main db_down false "default_user" boot) = 1.
Proof.
  apply (main_error_log_exits db_down false "default_user" boot
           "Database setup failed: connection refused").
  vm_compute. find_event.
Defined.

Lemma assistant_is_wired_witness :
  EvAssistant (main_kwargs boot (Some "run-7") "default_user")
    ∈ events (main interrupted false "default_user" boot)
  /\ Log INFO "Starting assistant session: run-7"
       ∈ events (main interrupted false "default_user" boot)
  /\ EvLoad (knowledge_base0 vector_db0) false
       ∈ events (main interrupted false "default_user" boot).
Proof.
  destruct (assistant_is_wired interrupted false "default_user" boot)
    as (Hloop & Hassistant & _).
  destruct (Hloop {| kwargs := main_kwargs boot (Some "run-7") "default_user";
                     run_id := "run-7" |} true)
    as (_ & Hbuilt & _ & Hlogged); [vm_compute; find_event|].
  split; [exact Hbuilt|]. split; [exact Hlogged|].
  by destruct (Hassistant _ Hbuilt) as (_ & _ & _ & Hloaded & _).
Defined.

Lemma resume_logged_iff_resumed_witness :
  (exists kw, EvAssistant kw ∈ events (main calm false "default_user" boot)
              /\ arg_run_id kw = Some "run-7")
  /\ Log INFO "Resuming existing session: run-7"
       ∉ events (main first_visit false "default_user" boot).
Proof.
  split.
  - apply (resume_logged_iff_resumed calm false "default_user" boot "run-7").
    vm_compute. find_event.
  - intros Hin.
    apply (resume_logged_iff_resumed first_visit false "default_user" boot "run-7")
      in Hin as (kw & Hin & Hrid).
    vm_compute in Hin. pick_event Hin. simplify_eq.
Defined.
